(** * article-openapi-go: the order endpoint, its server handler and its client

    A shallow embedding of the two hand-written programs of the repository,

    - [src/server/main.go]: the [echo] handler [PutOrderId] and its [main],
    - [src/client/main.go]: the one-shot client [main],

    together with the parts of the generated package [spec] (gen.go, produced
    by oapi-codegen from the OpenAPI document of the README) and of the HTTP
    framework that those programs call.  Go code that logs, prints, exits or
    talks to the network is written in a small state monad over the
    observable state of a process; [log.Fatal] ends the computation with an
    exit code. *)

From Stdlib Require Import String Ascii ZArith List Bool.
Import ListNotations.

Local Open Scope string_scope.
Local Open Scope Z_scope.

(** ** Go values shared by every package *)

(** A Go [error] value, identified with its message. *)
Definition error : Type := string.

(** A Go call returning [(v, err)]: either a value or a non-nil error. *)
Inductive result (A : Type) : Type :=
| ok (v : A)
| fail (err : error).
Arguments ok {A} v.
Arguments fail {A} err.

(** A Go [interface{}] value: a type together with a value of it.  This is
    what the variadic arguments of [log.Printf], [log.Fatal] and
    [fmt.Println] receive. *)
Definition any : Type := {T : Type & T}.

Definition box {T : Type} (v : T) : any := existT (fun X : Type => X) T v.

(** One output event of the process.  The arguments are kept as values (not
    rendered to text): [%v] of a struct of pointers prints addresses. *)
Inductive Line : Type :=
| Printf (format : string) (args : list any)
| Print (args : list any)
| Println (args : list any).

(** ** encoding/json, at the level of parsed documents *)
Module json.

(** Modelled from the spec: the "structured (key-value) encoding" of the
    request body.  The textual layer of JSON (the third-party marshaling
    library) is not part of the repository; a document is its tree. *)
#[warnings="-register-all"]
Inductive Value : Type :=
| Null
| Bool (b : bool)
| Int (n : Z)
| Real (literal : string)
| String (s : string)
| Array (items : list Value)
| Object (fields : list (string * Value)).

(** [json.Unmarshal(data, &v)]: updates [v] in place and reports an error. *)
Class Unmarshaler (T : Type) : Type :=
  Unmarshal : Value -> T -> T * option error.

(** [json.Marshal(v)]. *)
Class Marshaler (T : Type) : Type :=
  Marshal : T -> Value.

End json.

(** ** net/http *)
Module http.

Definition StatusOK : Z := 200.
Definition StatusCreated : Z := 201.
Definition StatusNotFound : Z := 404.
Definition StatusUnsupportedMediaType : Z := 415.
Definition StatusInternalServerError : Z := 500.

(** The bytes of a body either parse as a JSON document or do not. *)
Inductive Body : Type :=
| Unparseable (raw : string)
| Json (doc : json.Value).

Record Request : Type := mkRequest {
  Method : string;
  Host : string;
  Path : string;
  ContentType : string;
  body : Body
}.

Record Response : Type := mkResponse {
  StatusCode : Z
}.

(** The state of the response being written for the request in flight:
    the status, whether it has been sent, and the bytes of body written. *)
Record ResponseWriter : Type := mkWriter {
  Status : Z;
  Committed : bool;
  Size : Z
}.

End http.

(** ** The observable state of a running process *)

Record World : Type := mkWorld {
  stderr : list Line;                            (* where the standard logger writes *)
  stdout : list Line;                            (* standard output *)
  response : http.ResponseWriter;                (* server: the response in flight *)
  replies : list http.Response;                  (* server: responses sent so far *)
  wire : list http.Request;                      (* client: requests sent so far *)
  remote : http.Request -> result http.Response  (* client: what the network answers *)
}.

Definition set_stderr (l : list Line) (w : World) : World :=
  mkWorld l (stdout w) (response w) (replies w) (wire w) (remote w).

Definition set_stdout (l : list Line) (w : World) : World :=
  mkWorld (stderr w) l (response w) (replies w) (wire w) (remote w).

Definition set_response (r : http.ResponseWriter) (w : World) : World :=
  mkWorld (stderr w) (stdout w) r (replies w) (wire w) (remote w).

Definition set_replies (l : list http.Response) (w : World) : World :=
  mkWorld (stderr w) (stdout w) (response w) l (wire w) (remote w).

Definition set_wire (l : list http.Request) (w : World) : World :=
  mkWorld (stderr w) (stdout w) (response w) (replies w) l (remote w).

(** How a Go function call ends: it returns, or the process has exited. *)
Inductive Outcome (A : Type) : Type :=
| Returned (a : A)
| Exited (code : Z).
Arguments Returned {A} a.
Arguments Exited {A} code.

Definition Proc (A : Type) : Type := World -> Outcome A * World.

Definition ret {A : Type} (a : A) : Proc A := fun w => (Returned a, w).

Definition bind {A B : Type} (c : Proc A) (k : A -> Proc B) : Proc B :=
  fun w =>
    match c w with
    | (Returned a, w') => k a w'
    | (Exited code, w') => (Exited code, w')
    end.

Declare Scope proc_scope.
Delimit Scope proc_scope with proc.
Notation "x <- c ;; k" := (bind c (fun x => k))
  (at level 61, c at next level, right associativity) : proc_scope.
Notation "c ;; k" := (bind c (fun _ => k))
  (at level 61, right associativity) : proc_scope.
Local Open Scope proc_scope.

Definition get : Proc World := fun w => (Returned w, w).

Definition modify (f : World -> World) : Proc unit := fun w => (Returned tt, f w).

(** [os.Exit(code)]: nothing after it runs. *)
Definition os_Exit {A : Type} (code : Z) : Proc A := fun w => (Exited code, w).

(** Package log: the standard logger. *)
Module log.

Definition Printf (format : string) (args : list any) : Proc unit :=
  modify (fun w => set_stderr (stderr w ++ [Printf format args]) w).

Definition Print (args : list any) : Proc unit :=
  modify (fun w => set_stderr (stderr w ++ [Print args]) w).

(** [log.Fatal] is [Print] followed by [os.Exit(1)]. *)
Definition Fatal {A : Type} (args : list any) : Proc A :=
  Print args ;; os_Exit 1.

End log.

(** Package fmt. *)
Module fmt.

Definition Println (args : list any) : Proc unit :=
  modify (fun w => set_stdout (stdout w ++ [Println args]) w).

End fmt.

(** [http.Client.Do]: the request goes out, the network answers with a
    response or with a transport error. *)
Definition http_Do (req : http.Request) : Proc (result http.Response) :=
  fun w => (Returned (remote w req), set_wire (wire w ++ [req]) w).

(** ** The web framework (github.com/labstack/echo/v4) *)
Module echo.

(** The interface [echo.Context] a handler receives, with the methods the
    programs of this repository call on it.  [Bind(i interface{}) error]
    fills the value behind the pointer [i] and returns an error or nil. *)
Record Context : Type := mkContext {
  Bind : forall T : Type, json.Unmarshaler T -> T -> T * option error;
  Param : string -> string
}.
Arguments Bind c {T _} i.

Definition HandlerFunc : Type := Context -> Proc (option error).

Record Route : Type := mkRoute {
  route_method : string;
  route_path : string;
  route_handler : HandlerFunc
}.

Record Echo : Type := mkEcho {
  routes : list Route
}.

Definition New : Echo := mkEcho [].

Definition PUT (e : Echo) (path : string) (h : HandlerFunc) : Echo :=
  mkEcho (routes e ++ [mkRoute "PUT" path h]).

(** Modelled from the spec: the framework is a capability interface
    - "register a handler for (method, path), read path parameters,
    read/write structured body, write status code"; its engine is an
    external collaborator.  A path is cut at every slash. *)
Fixpoint segments (s : string) : list string :=
  match s with
  | EmptyString => [EmptyString]
  | String c rest =>
      if Ascii.eqb c "/" then EmptyString :: segments rest
      else match segments rest with
           | seg :: more => String c seg :: more
           | [] => [String c EmptyString]
           end
  end.

(** Modelled from the spec: "[{id}] is a URL path segment (string)",
    "required by position": a [:name] segment of the pattern takes one
    non-empty segment of the path, any other segment must be equal. *)
Fixpoint match_segments (pattern path : list string)
  : option (list (string * string)) :=
  match pattern, path with
  | [], [] => Some []
  | String ":" name :: ps, seg :: ss =>
      if String.eqb seg "" then None
      else option_map (cons (name, seg)) (match_segments ps ss)
  | p :: ps, seg :: ss =>
      if String.eqb p seg then match_segments ps ss else None
  | _, _ => None
  end.

Fixpoint lookup (params : list (string * string)) (name : string) : string :=
  match params with
  | [] => ""
  | (k, v) :: rest => if String.eqb k name then v else lookup rest name
  end.

Fixpoint find (rs : list Route) (r : http.Request)
  : option (HandlerFunc * list (string * string)) :=
  match rs with
  | [] => None
  | rt :: rest =>
      if String.eqb (route_method rt) (http.Method r) then
        match match_segments (segments (route_path rt)) (segments (http.Path r)) with
        | Some params => Some (route_handler rt, params)
        | None => find rest r
        end
      else find rest r
  end.

(** Modelled from the spec: "content type restricted to a structured
    encoding"; a "body [that] does not parse against the declared content
    type/shape" is a decoding failure. *)
Definition DefaultBinder (r : http.Request) (T : Type) (U : json.Unmarshaler T)
    (i : T) : T * option error :=
  if String.eqb (http.ContentType r) "application/json" then
    match http.body r with
    | http.Unparseable _ => (i, Some "code=400, message=Syntax error")
    | http.Json doc => json.Unmarshal doc i
    end
  else (i, Some "code=415, message=Unsupported Media Type").

(** The context the framework builds for one request. *)
Definition NewContext (r : http.Request) (params : list (string * string))
  : Context :=
  mkContext (DefaultBinder r) (lookup params).

(** [c.Response().WriteHeader(code)]: the first call sends the status. *)
Definition WriteHeader (code : Z) : Proc unit :=
  modify (fun w =>
    if http.Committed (response w) then w
    else set_response (http.mkWriter code true (http.Size (response w))) w).

Definition DefaultHTTPErrorHandler (err : error) : Proc unit :=
  WriteHeader http.StatusInternalServerError.

(** Modelled from the spec: the dispatcher "binds an incoming request
    matching the declared path/method to a single handler function";
    another request gets the "default - typically not found".  A response
    starts out as 200 and not sent; when the handler has returned without
    writing a status, that is what goes out. *)
Definition ServeHTTP (e : Echo) (r : http.Request) : Proc unit :=
  modify (set_response (http.mkWriter http.StatusOK false 0)) ;;
  match find (routes e) r with
  | Some (h, params) =>
      err <- h (NewContext r params) ;;
      match err with
      | Some er => DefaultHTTPErrorHandler er
      | None => ret tt
      end
  | None => WriteHeader http.StatusNotFound
  end ;;
  WriteHeader http.StatusOK ;;
  modify (fun w =>
    set_replies (replies w ++ [http.mkResponse (http.Status (response w))]) w).

(** [e.Start(address)] serves the requests that arrive, one after the
    other, and returns an error when the listener is closed. *)
Fixpoint Start (e : Echo) (address : string) (incoming : list http.Request)
  : Proc error :=
  match incoming with
  | [] => ret "http: Server closed"
  | r :: rest => ServeHTTP e r ;; Start e address rest
  end.

(** [e.Logger.Fatal]: the framework's logger prints and exits with 1. *)
Definition Logger_Fatal {A : Type} (args : list any) : Proc A :=
  modify (fun w => set_stdout (stdout w ++ [Print args]) w) ;; os_Exit 1.

End echo.

(** ** The generated package [spec] (import path article-openapi) *)
Module spec.

(** Modelled from the spec: gen.go is not among the sources.  [item] is an
    "enumerated string, one of a closed set of allowed values"; the README's
    OpenAPI document lists them.  In Go: [type OrderItem string]. *)
Definition OrderItem : Type := string.

Definition OrderItemTeaTableGreen : OrderItem := "Tea Table Green".
Definition OrderItemTeaTableRed : OrderItem := "Tea Table Red".

(** The declared enumeration of [item]. *)
Definition OrderItem_enum : list OrderItem :=
  [OrderItemTeaTableGreen; OrderItemTeaTableRed].

Definition declared (s : OrderItem) : bool :=
  existsb (String.eqb s) OrderItem_enum.

(** Modelled from the spec: the entity [Order] with its fields [id], [item]
    and [price], each optional.  The client fills the struct with [&item]
    and [&price]: the fields are pointers, [nil] when the field is absent.
    [price] is a Go [int]; nothing in the programs computes with it. *)
Record Order : Type := mkOrder {
  Id : option string;
  Item : option OrderItem;
  Price : option Z
}.

(** [type PutOrderIdJSONRequestBody Order]. *)
Definition PutOrderIdJSONRequestBody : Type := Order.

(** The zero value, as [var req spec.PutOrderIdJSONRequestBody] gives it. *)
Definition zero : PutOrderIdJSONRequestBody := mkOrder None None None.

Definition present {A : Type} (key : string) (f : A -> json.Value)
    (field : option A) : list (string * json.Value) :=
  match field with
  | Some v => [(key, f v)]
  | None => []
  end.

(** Modelled from the spec: the request body is a "structured (key-value)
    encoding with fields [item] (string, optional ...) and [price]
    (integer, optional)"; an absent field is left out of the document. *)
#[global] Instance Marshal_Order : json.Marshaler Order := fun o =>
  json.Object (present "id" json.String (Id o)
               ++ present "item" json.String (Item o)
               ++ present "price" json.Int (Price o)).

Definition as_string (key : string) (v : json.Value) : result (option string) :=
  match v with
  | json.Null => ok None
  | json.String s => ok (Some s)
  | _ => fail ("json: cannot unmarshal into field " ++ key ++ " of type string")
  end.

Definition as_int (key : string) (v : json.Value) : result (option Z) :=
  match v with
  | json.Null => ok None
  | json.Int n => ok (Some n)
  | _ => fail ("json: cannot unmarshal into field " ++ key ++ " of type int")
  end.

(** One key of the document: a known key must carry a value of the
    declared type (or null, which leaves the pointer nil), an unknown key is
    skipped. *)
Definition set_field (o : Order) (kv : string * json.Value) : result Order :=
  let (key, v) := kv in
  if String.eqb key "id" then
    match as_string key v with
    | ok x => ok (mkOrder x (Item o) (Price o))
    | fail e => fail e
    end
  else if String.eqb key "item" then
    match as_string key v with
    | ok x => ok (mkOrder (Id o) x (Price o))
    | fail e => fail e
    end
  else if String.eqb key "price" then
    match as_int key v with
    | ok x => ok (mkOrder (Id o) (Item o) x)
    | fail e => fail e
    end
  else ok o.

Fixpoint set_fields (o : Order) (kvs : list (string * json.Value))
  : Order * option error :=
  match kvs with
  | [] => (o, None)
  | kv :: rest =>
      match set_field o kv with
      | ok o' => set_fields o' rest
      | fail e => (o, Some e)
      end
  end.

(** Modelled from the spec: decoding a body into an [Order]; a document
    that is not of the declared shape is a decoding failure.  No enum
    membership is looked at: [OrderItem] is a plain string type. *)
#[global] Instance Unmarshal_Order : json.Unmarshaler Order := fun doc o =>
  match doc with
  | json.Object kvs => set_fields o kvs
  | json.Null => (o, None)
  | _ => (o, Some "json: cannot unmarshal into Go value of type spec.Order")
  end.

#[global] Instance Marshal_PutOrderIdJSONRequestBody
  : json.Marshaler PutOrderIdJSONRequestBody := Marshal_Order.

#[global] Instance Unmarshal_PutOrderIdJSONRequestBody
  : json.Unmarshaler PutOrderIdJSONRequestBody := Unmarshal_Order.

(** *** Server side *)

(** [type ServerInterface interface { PutOrderId(ctx echo.Context, id string) error }] *)
Class ServerInterface (S : Type) : Type :=
  PutOrderId : S -> echo.Context -> string -> Proc (option error).

(** Modelled from the spec: the generated wrapper hands the handler "the
    path parameter" [id], a string with "no format constraint enforced". *)
Definition ServerInterfaceWrapper_PutOrderId {S : Type} {I : ServerInterface S}
    (Handler : S) : echo.HandlerFunc :=
  fun ctx =>
    let id := echo.Param ctx "id" in
    PutOrderId Handler ctx id.

(** Modelled from the spec: one operation, "path [/order/{id}], method
    PUT"; "no operation exists for any other path or method". *)
Definition RegisterHandlers {S : Type} {I : ServerInterface S}
    (router : echo.Echo) (si : S) : echo.Echo :=
  echo.PUT router "/order/:id" (ServerInterfaceWrapper_PutOrderId si).

(** *** Client side *)

Record ClientWithResponses : Type := mkClient {
  Server : string
}.

(** Modelled from the spec: the Client Invoker works "against a configured
    base address"; the spec gives its construction no way to fail. *)
Definition NewClientWithResponses (server : string)
  : result ClientWithResponses :=
  ok (mkClient server).

Record PutOrderIdResponse : Type := mkPutOrderIdResponse {
  HTTPResponse : option http.Response
}.

(** [func (r PutOrderIdResponse) StatusCode() int] *)
Definition StatusCode (r : PutOrderIdResponse) : Z :=
  match HTTPResponse r with
  | Some rsp => http.StatusCode rsp
  | None => 0
  end.

(** Modelled from the spec: the invoker "constructs a request matching the
    declared shape": PUT on [/order/{id}] with the encoded [Order]. *)
Definition NewPutOrderIdRequest (server : string) (id : string)
    (body : PutOrderIdJSONRequestBody) : http.Request :=
  http.mkRequest "PUT" server ("/order/" ++ id) "application/json"
    (http.Json (json.Marshal body)).

(** Modelled from the spec: "sends it, and reports the status result";
    "a single attempt per invocation"; a transport failure comes back as
    the error of the call. *)
Definition PutOrderIdWithResponse (c : ClientWithResponses) (id : string)
    (body : PutOrderIdJSONRequestBody) : Proc (result PutOrderIdResponse) :=
  rsp <- http_Do (NewPutOrderIdRequest (Server c) id body) ;;
  match rsp with
  | fail err => ret (fail err)
  | ok r => ret (ok (mkPutOrderIdResponse (Some r)))
  end.

End spec.

(** ** src/server/main.go *)
Module server.

Definition address : string := ":8088".

(** [type server struct {}] *)
Inductive server : Type := mkServer.

(** [func (s server) PutOrderId(c echo.Context, id string) error] *)
Definition PutOrderId (s : server) (c : echo.Context) (id : string)
  : Proc (option error) :=
  let req : spec.PutOrderIdJSONRequestBody := spec.zero in
  let '(req, err) := echo.Bind c req in
  match err with
  | Some err => log.Fatal [box err]
  | None => ret tt
  end ;;
  log.Printf "id: %v, req: %v" [box id; box req] ;;
  ret None.

#[global] Instance server_ServerInterface : spec.ServerInterface server :=
  PutOrderId.

(** [func main()], run against the requests that arrive while it listens. *)
Definition main (incoming : list http.Request) : Proc unit :=
  let e := echo.New in
  let e := spec.RegisterHandlers e mkServer in
  err <- echo.Start e address incoming ;;
  echo.Logger_Fatal [box err].

End server.

(** ** src/client/main.go *)
Module client.

Definition server : string := "http://localhost:8088".

(** [func main()] *)
Definition main : Proc unit :=
  match spec.NewClientWithResponses server with
  | fail err => log.Fatal [box err]
  | ok client =>
      let item := spec.OrderItemTeaTableGreen in
      let price := 14 in
      r <- spec.PutOrderIdWithResponse client "234578"
             (spec.mkOrder None (Some item) (Some price)) ;;
      match r with
      | fail err => log.Fatal [box err]
      | ok resp => fmt.Println [box (spec.StatusCode resp)]
      end
  end.

End client.

(** ** Runs *)

(** A process that has just started: nothing logged, printed, sent or
    answered, no response in flight; [net] is the network around it. *)
Definition boot (net : http.Request -> result http.Response) : World :=
  mkWorld [] [] (http.mkWriter 0 false 0) [] [] net.

(** A network on which nothing listens. *)
Definition unreachable : http.Request -> result http.Response :=
  fun _ => fail "dial tcp 127.0.0.1:8088: connect: connection refused".

(** The network as the client sees it when the server program of this
    repository listens at the other end: the reply of a freshly started
    server to the request, or a broken connection when it sent none. *)
Definition served (req : http.Request) : result http.Response :=
  match replies (snd (server.main [req] (boot unreachable))) with
  | [rsp] => ok rsp
  | _ => fail "EOF"
  end.

(** A status of the client-error class. *)
Definition is_client_error (status : Z) : bool :=
  (400 <=? status) && (status <? 500).

(** A string that can stand for [{id}] in [/order/{id}]: one non-empty path
    segment. *)
Fixpoint no_slash (s : string) : bool :=
  match s with
  | EmptyString => true
  | String c rest => negb (Ascii.eqb c "/") && no_slash rest
  end.

Definition path_segment (s : string) : bool :=
  negb (String.eqb s "") && no_slash s.

(** The request of the README's scenario, written out. *)
Definition scenario_request : http.Request :=
  http.mkRequest "PUT" "http://localhost:8088" "/order/234578" "application/json"
    (http.Json (json.Object [("item", json.String "Tea Table Green");
                             ("price", json.Int 14)])).

(** The router as [server.main] sets it up before it starts listening. *)
Definition registered : echo.Echo :=
  spec.RegisterHandlers echo.New server.mkServer.

(** The line the handler logs for a bound request, added to the log of [w]. *)
Definition logged (id : string) (req : spec.PutOrderIdJSONRequestBody)
    (w : World) : World :=
  set_stderr (stderr w ++ [Printf "id: %v, req: %v" [box id; box req]]) w.

(** ** What the server does with one request *)

(** What the dispatcher of [server.main] hands the handler for a request:
    the path parameter [id] and what [c.Bind(&req)] gives on a zero [req];
    [None] when no registered route takes the request. *)
Definition delivery (r : http.Request)
  : option (string * (spec.PutOrderIdJSONRequestBody * option error)) :=
  match echo.find (echo.routes registered) r with
  | Some (_, params) =>
      let c := echo.NewContext r params in
      Some (echo.Param c "id", echo.Bind c spec.zero)
  | None => None
  end.

(** A request that reaches the handler with a body that does not bind. *)
Definition poisonous (r : http.Request) : bool :=
  match delivery r with
  | Some (_, (_, Some _)) => true
  | _ => false
  end.

Definition harmless (r : http.Request) : bool := negb (poisonous r).

(** The reply to a request that does not stop the server. *)
Definition reply_to (r : http.Request) : http.Response :=
  match delivery r with
  | Some _ => http.mkResponse http.StatusOK
  | None => http.mkResponse http.StatusNotFound
  end.

(** The lines the handler logs for a request that does not stop the server. *)
Definition lines_of (r : http.Request) : list Line :=
  match delivery r with
  | Some (id, (req, None)) => [Printf "id: %v, req: %v" [box id; box req]]
  | _ => []
  end.

(** The error a poisonous request makes the handler print. *)
Definition fatal_lines (r : http.Request) : list Line :=
  match delivery r with
  | Some (_, (_, Some err)) => [Print [box err]]
  | _ => []
  end.

(** The network as the client sees it when the server of this repository
    has already received [history]: the reply to the request that comes
    next, or a broken connection when the server is no longer there. *)
Definition served_after (history : list http.Request) (req : http.Request)
  : result http.Response :=
  match skipn (length history)
          (replies (snd (server.main (history ++ [req]) (boot unreachable)))) with
  | [rsp] => ok rsp
  | _ => fail "EOF"
  end.

(** The requests of a run that arrive before the first poisonous one. *)
Fixpoint served_prefix (incoming : list http.Request) : list http.Request :=
  match incoming with
  | [] => []
  | r :: rest => if harmless r then r :: served_prefix rest else []
  end.

(** The first poisonous request of a run, if there is one. *)
Definition stopper (incoming : list http.Request) : option http.Request :=
  List.find poisonous incoming.

(** * Properties *)

(** ** The process monad *)

Lemma bind_Returned {A B : Type} (c : Proc A) (k : A -> Proc B) (w w' : World) (a : A) :
  c w = (Returned a, w') -> bind c k w = k a w'.
Proof. intros H. unfold bind. rewrite H. reflexivity. Qed.

Lemma bind_Exited {A B : Type} (c : Proc A) (k : A -> Proc B) (w w' : World) (code : Z) :
  c w = (Exited code, w') -> bind c k w = (Exited code, w').
Proof. intros H. unfold bind. rewrite H. reflexivity. Qed.

(** Once a request has ended the process, the server answers nothing more. *)
Lemma Start_Exited (e : echo.Echo) (address : string) (r : http.Request)
    (rest : list http.Request) (w w' : World) (code : Z) :
  echo.ServeHTTP e r w = (Exited code, w') ->
  echo.Start e address (r :: rest) w = (Exited code, w').
Proof. intros H. simpl. apply bind_Exited. exact H. Qed.

(** ** The handler *)

Section Handler.

Variables (s : server.server) (c : echo.Context) (id : string) (w : World).

Lemma PutOrderId_bound (req : spec.PutOrderIdJSONRequestBody) :
  echo.Bind c spec.zero = (req, None) ->
  server.PutOrderId s c id w = (Returned None, logged id req w).
Proof.
  intros Hbind. unfold server.PutOrderId. rewrite Hbind. reflexivity.
Qed.

Lemma PutOrderId_unbound (req : spec.PutOrderIdJSONRequestBody) (err : error) :
  echo.Bind c spec.zero = (req, Some err) ->
  server.PutOrderId s c id w
  = (Exited 1, set_stderr (stderr w ++ [Print [box err]]) w).
Proof.
  intros Hbind. unfold server.PutOrderId. rewrite Hbind. reflexivity.
Qed.

End Handler.

(** ** The body codec of the generated package *)

Lemma Unmarshal_Marshal (o : spec.Order) :
  json.Unmarshal (json.Marshal o) spec.zero = (o, None).
Proof.
  destruct o as [[i|] [it|] [p|]]; reflexivity.
Qed.

(** ** Routing *)

Lemma segments_no_slash (s : string) :
  no_slash s = true -> echo.segments s = [s].
Proof.
  induction s as [|c rest IH]; simpl; intros H.
  - reflexivity.
  - apply andb_prop in H. destruct H as [Hc Hrest].
    apply negb_true_iff in Hc. rewrite Hc, (IH Hrest). reflexivity.
Qed.

Lemma segments_order (id : string) :
  no_slash id = true ->
  echo.segments ("/order/" ++ id) = [""; "order"; id].
Proof.
  intros H. simpl. rewrite (segments_no_slash id H). reflexivity.
Qed.

Lemma find_order (host id content : string) (b : http.Body) :
  path_segment id = true ->
  echo.find (echo.routes registered)
    (http.mkRequest "PUT" host ("/order/" ++ id) content b)
  = Some (spec.ServerInterfaceWrapper_PutOrderId server.mkServer, [("id", id)]).
Proof.
  intros H. apply andb_prop in H. destruct H as [Hne Hns].
  apply negb_true_iff in Hne.
  unfold registered, spec.RegisterHandlers, echo.PUT, echo.New.
  cbn [echo.routes app echo.find echo.route_method echo.route_path
       echo.route_handler http.Method http.Path].
  rewrite (segments_order id Hns).
  change (echo.segments "/order/:id") with [""; "order"; ":id"].
  cbn. rewrite Hne. reflexivity.
Qed.

(** ** The dispatcher *)

(** A PUT on [/order/{id}] whose body decodes: the handler runs, returns nil
    without writing a status, and the reply goes out as the framework
    prepared it. *)
Lemma ServeHTTP_order (host id : string) (doc : json.Value)
    (req : spec.PutOrderIdJSONRequestBody) (w : World) :
  path_segment id = true ->
  json.Unmarshal doc spec.zero = (req, None) ->
  exists w',
    echo.ServeHTTP registered
      (http.mkRequest "PUT" host ("/order/" ++ id) "application/json" (http.Json doc)) w
    = (Returned tt, w')
    /\ stderr w' = (stderr w ++ [Printf "id: %v, req: %v" [box id; box req]])%list
    /\ replies w' = (replies w ++ [http.mkResponse http.StatusOK])%list
    /\ stdout w' = stdout w /\ wire w' = wire w.
Proof.
  intros Hid Hdoc. unfold echo.ServeHTTP.
  rewrite (find_order host id "application/json" (http.Json doc) Hid).
  unfold spec.ServerInterfaceWrapper_PutOrderId, spec.PutOrderId,
    server.server_ServerInterface.
  eexists. split.
  - unfold bind at 1. cbn [modify].
    erewrite bind_Returned.
    2:{ erewrite bind_Returned.
        2:{ apply PutOrderId_bound. cbn. unfold echo.DefaultBinder. cbn.
            exact Hdoc. }
        reflexivity. }
    cbn. reflexivity.
  - cbn. repeat split; reflexivity.
Qed.

(** One body that does not parse stops the server: neither that request nor
    the well-formed one after it gets a reply. *)
Example malformed_body_stops_the_server :
  let bad := http.mkRequest "PUT" "localhost:8088" "/order/1" "application/json"
               (http.Unparseable "{") in
  let after := server.main [bad; scenario_request] (boot unreachable) in
  fst after = Exited 1
  /\ replies (snd after) = []
  /\ stderr (snd after) = [Print [box "code=400, message=Syntax error"]].
Proof. repeat split; reflexivity. Qed.

(** ** The client *)

(** The whole run of the client, by what the network answers. *)
Lemma client_main_eq (w : World) :
  client.main w
  = let sent := set_wire (wire w ++ [scenario_request]) w in
    match remote w scenario_request with
    | fail err => (Exited 1, set_stderr (stderr sent ++ [Print [box err]]) sent)
    | ok rsp =>
        (Returned tt,
         set_stdout (stdout sent ++ [Println [box (http.StatusCode rsp)]]) sent)
    end.
Proof.
  unfold client.main, spec.PutOrderIdWithResponse, http_Do, bind.
  cbn -[scenario_request].
  change (spec.NewPutOrderIdRequest client.server "234578"
            (spec.mkOrder None (Some spec.OrderItemTeaTableGreen) (Some 14)))
    with scenario_request.
  destruct (remote w scenario_request); reflexivity.
Qed.

(** The encoded request determines the body it was built from. *)
Lemma NewPutOrderIdRequest_inj (host id : string)
    (b1 b2 : spec.PutOrderIdJSONRequestBody) :
  spec.NewPutOrderIdRequest host id b1 = spec.NewPutOrderIdRequest host id b2 ->
  b1 = b2.
Proof.
  intros H.
  pose proof (f_equal
    (fun r => match http.body r with
              | http.Json doc => json.Unmarshal doc spec.zero
              | http.Unparseable _ => (spec.zero, None)
              end) H) as Hdec.
  change (json.Unmarshal (json.Marshal b1) spec.zero
          = json.Unmarshal (json.Marshal b2) spec.zero) in Hdec.
  rewrite !Unmarshal_Marshal in Hdec. congruence.
Qed.

(** * The claims *)

(** C2: when binding the request body into the order fails, the handler's
    error branch ends the process - [log.Fatal] prints the error and exits
    with status 1 - and the handler neither returns an error nor writes
    anything to the response. *)
Theorem bind_failure_exits_process (s : server.server) (c : echo.Context)
    (id : string) (w : World) (req : spec.PutOrderIdJSONRequestBody) (err : error) :
  echo.Bind c spec.zero = (req, Some err) ->
  exists w',
    server.PutOrderId s c id w = (Exited 1, w')
    /\ stderr w' = (stderr w ++ [Print [box err]])%list
    /\ response w' = response w
    /\ replies w' = replies w.
Proof.
  intros Hbind. eexists. split.
  - apply (PutOrderId_unbound s c id w req err Hbind).
  - repeat split; reflexivity.
Qed.

Lemma bind_failure_exits_process_witness :
  let c := echo.NewContext
             (http.mkRequest "PUT" "localhost:8088" "/order/1" "application/json"
                (http.Unparseable "{"))
             [("id", "1")] in
  echo.Bind c spec.zero = (spec.zero, Some "code=400, message=Syntax error")
  /\ exists w',
       server.PutOrderId server.mkServer c "1" (boot unreachable) = (Exited 1, w')
       /\ stderr w'
          = (stderr (boot unreachable)
             ++ [Print [box "code=400, message=Syntax error"]])%list
       /\ response w' = response (boot unreachable)
       /\ replies w' = replies (boot unreachable).
Proof.
  split.
  - reflexivity.
  - apply (bind_failure_exits_process server.mkServer _ "1" (boot unreachable)
             spec.zero "code=400, message=Syntax error").
    reflexivity.
Defined.

(** C7: for a request whose body was bound, the handler's only effect is one
    line on the log carrying the id and the decoded order; it returns nil,
    and it leaves the response as it found it: no status (so no 201) and no
    body is written by the handler. *)
Theorem handler_only_logs (s : server.server) (c : echo.Context) (id : string)
    (w : World) (req : spec.PutOrderIdJSONRequestBody) :
  echo.Bind c spec.zero = (req, None) ->
  exists w',
    server.PutOrderId s c id w = (Returned None, w')
    /\ stderr w' = (stderr w ++ [Printf "id: %v, req: %v" [box id; box req]])%list
    /\ stdout w' = stdout w
    /\ response w' = response w
    /\ replies w' = replies w
    /\ wire w' = wire w
    /\ remote w' = remote w.
Proof.
  intros Hbind. exists (logged id req w). split.
  - exact (PutOrderId_bound s c id w req Hbind).
  - unfold logged. repeat split; reflexivity.
Qed.

Lemma handler_only_logs_witness :
  let c := echo.NewContext scenario_request [("id", "234578")] in
  let req := spec.mkOrder None (Some "Tea Table Green") (Some 14) in
  let w := boot unreachable in
  echo.Bind c spec.zero = (req, None)
  /\ exists w',
       server.PutOrderId server.mkServer c "234578" w = (Returned None, w')
       /\ stderr w'
          = (stderr w ++ [Printf "id: %v, req: %v" [box "234578"; box req]])%list
       /\ stdout w' = stdout w
       /\ response w' = response w
       /\ replies w' = replies w
       /\ wire w' = wire w
       /\ remote w' = remote w.
Proof.
  split.
  - reflexivity.
  - apply (handler_only_logs server.mkServer
             (echo.NewContext scenario_request [("id", "234578")])).
    reflexivity.
Defined.

(** C9: once the body is bound, the handler returns nil whatever the values
    of [item] and [price] are - a string outside the enumeration, a negative
    price, an absent field: nothing in the handler looks at them. *)
Theorem handler_returns_nil_unvalidated (s : server.server) (c : echo.Context)
    (id : string) (w : World)
    (oid : option string) (item : option spec.OrderItem) (price : option Z) :
  echo.Bind c spec.zero = (spec.mkOrder oid item price, None) ->
  fst (server.PutOrderId s c id w) = Returned None.
Proof.
  intros Hbind.
  rewrite (PutOrderId_bound s c id w _ Hbind). reflexivity.
Qed.

Lemma handler_returns_nil_unvalidated_witness :
  let doc := json.Object [("item", json.String "Nonexistent Item");
                          ("price", json.Int (-5))] in
  let c := echo.NewContext
             (http.mkRequest "PUT" "localhost:8088" "/order/1" "application/json"
                (http.Json doc))
             [("id", "1")] in
  spec.declared "Nonexistent Item" = false
  /\ echo.Bind c spec.zero
     = (spec.mkOrder None (Some "Nonexistent Item") (Some (-5)), None)
  /\ fst (server.PutOrderId server.mkServer c "1" (boot unreachable))
     = Returned None.
Proof.
  split; [reflexivity | split; [reflexivity | ]].
  apply (handler_returns_nil_unvalidated server.mkServer _ "1" (boot unreachable)
           None (Some "Nonexistent Item") (Some (-5))).
  reflexivity.
Defined.

(** C1: the status a PUT on [/order/{id}] gets.  For every order whose
    [item] is a declared member or absent, whatever its [price], the encoded
    request is dispatched to the handler, the handler returns nil without
    writing a status, and the reply carries the framework's 200 - which is
    not the documented 201. *)
Theorem put_order_replies_200_not_201 (host id : string) (o : spec.Order) (w : World) :
  path_segment id = true ->
  match spec.Item o with
  | Some item => spec.declared item = true
  | None => True
  end ->
  exists w',
    echo.ServeHTTP registered (spec.NewPutOrderIdRequest host id o) w
    = (Returned tt, w')
    /\ replies w' = (replies w ++ [http.mkResponse http.StatusOK])%list
    /\ http.StatusOK <> http.StatusCreated.
Proof.
  intros Hid _.
  destruct (ServeHTTP_order host id (json.Marshal o) o w Hid (Unmarshal_Marshal o))
    as [w' [Hrun [_ [Hreplies _]]]].
  exists w'. split; [exact Hrun | split; [exact Hreplies | discriminate]].
Qed.

Lemma put_order_replies_200_not_201_witness :
  let o := spec.mkOrder None (Some spec.OrderItemTeaTableRed) (Some (-3)) in
  let w := boot unreachable in
  path_segment "10045234" = true
  /\ spec.declared spec.OrderItemTeaTableRed = true
  /\ exists w',
       echo.ServeHTTP registered
         (spec.NewPutOrderIdRequest "http://localhost:8088" "10045234" o) w
       = (Returned tt, w')
       /\ replies w' = (replies w ++ [http.mkResponse http.StatusOK])%list
       /\ http.StatusOK <> http.StatusCreated.
Proof.
  split; [reflexivity | split; [reflexivity | ]].
  apply (put_order_replies_200_not_201 "http://localhost:8088" "10045234"
           (spec.mkOrder None (Some spec.OrderItemTeaTableRed) (Some (-3)))
           (boot unreachable)); reflexivity.
Defined.

(** C3: the scenario PUT [/order/234578] with body
    [{"item":"Tea Table Green","price":14}], run through the server program
    and through the client program talking to it.  The handler observes id
    "234578", item "Tea Table Green" and price 14; the reply, and the status
    the client prints, is 200 and not 201. *)
Theorem scenario_234578 :
  let after := snd (server.main [scenario_request] (boot unreachable)) in
  stderr after
  = [Printf "id: %v, req: %v"
       [box "234578"; box (spec.mkOrder None (Some "Tea Table Green") (Some 14))]]
  /\ replies after = [http.mkResponse 200]
  /\ client.main (boot served)
     = (Returned tt,
        set_stdout [Println [box 200]] (set_wire [scenario_request] (boot served)))
  /\ 200 <> http.StatusCreated.
Proof.
  repeat split; try reflexivity. discriminate.
Qed.

(** C4, as the code has it: a payload that decodes and whose [item] is a
    string outside the declared enumeration is not rejected.  The handler is
    run on it as on any other order: it logs the id and the order and
    returns nil.  The reply that goes out carries status 200, which is no
    client-error status, and the process keeps running. *)
Theorem undeclared_item_is_accepted (host id : string)
    (fields : list (string * json.Value)) (w : World)
    (req : spec.PutOrderIdJSONRequestBody) (item : spec.OrderItem) :
  path_segment id = true ->
  spec.set_fields spec.zero fields = (req, None) ->
  spec.Item req = Some item ->
  spec.declared item = false ->
  server.PutOrderId server.mkServer
    (echo.NewContext
       (http.mkRequest "PUT" host ("/order/" ++ id) "application/json"
          (http.Json (json.Object fields)))
       [("id", id)])
    id w
  = (Returned None, logged id req w)
  /\ exists w' : World,
       echo.ServeHTTP registered
         (http.mkRequest "PUT" host ("/order/" ++ id) "application/json"
            (http.Json (json.Object fields))) w
       = (Returned tt, w')
       /\ stderr w' = (stderr w ++ [Printf "id: %v, req: %v" [box id; box req]])%list
       /\ replies w' = (replies w ++ [http.mkResponse http.StatusOK])%list
       /\ is_client_error http.StatusOK = false.
Proof.
  intros Hid Hdoc _ _. split.
  - apply PutOrderId_bound. cbn. unfold echo.DefaultBinder. cbn. exact Hdoc.
  - destruct (ServeHTTP_order host id (json.Object fields) req w Hid Hdoc)
      as [w' [Hrun [Hlog [Hreplies _]]]].
    exists w'. repeat split; assumption || reflexivity.
Qed.

Lemma undeclared_item_is_accepted_witness :
  let fields := [("item", json.String "Nonexistent Item")] in
  let req := spec.mkOrder None (Some "Nonexistent Item") None in
  let w := boot unreachable in
  let r := http.mkRequest "PUT" "localhost:8088" ("/order/" ++ "1") "application/json"
             (http.Json (json.Object fields)) in
  path_segment "1" = true
  /\ spec.set_fields spec.zero fields = (req, None)
  /\ spec.declared "Nonexistent Item" = false
  /\ server.PutOrderId server.mkServer (echo.NewContext r [("id", "1")]) "1" w
     = (Returned None, logged "1" req w)
  /\ exists w' : World,
       echo.ServeHTTP registered r w = (Returned tt, w')
       /\ stderr w' = (stderr w ++ [Printf "id: %v, req: %v" [box "1"; box req]])%list
       /\ replies w' = (replies w ++ [http.mkResponse http.StatusOK])%list
       /\ is_client_error http.StatusOK = false.
Proof.
  split; [reflexivity | split; [reflexivity | split; [reflexivity | ]]].
  apply (undeclared_item_is_accepted "localhost:8088" "1"
           [("item", json.String "Nonexistent Item")] (boot unreachable)
           (spec.mkOrder None (Some "Nonexistent Item") None) "Nonexistent Item");
    reflexivity.
Defined.

(** C4, as the claim states it, fails: PUT [/order/1] with body
    [{"item":"Nonexistent Item"}] carries an item outside the enumeration, and
    the server answers it with 200, which is no client-error status. *)
Lemma undeclared_item_not_rejected :
  let r := http.mkRequest "PUT" "localhost:8088" "/order/1" "application/json"
             (http.Json (json.Object [("item", json.String "Nonexistent Item")])) in
  let after := snd (server.main [r] (boot unreachable)) in
  spec.declared "Nonexistent Item" = false
  /\ replies after = [http.mkResponse 200]
  /\ is_client_error 200 = false
  /\ stderr after
     = [Printf "id: %v, req: %v"
          [box "1"; box (spec.mkOrder None (Some "Nonexistent Item") None)]].
Proof.
  repeat split; reflexivity.
Qed.

(** C5: when the exchange fails at the transport, the client reports it:
    [log.Fatal] prints the error and the process exits with status 1, and
    nothing is printed on standard output - no status code, in particular no
    zero.  A run whose exchange succeeds ends differently: it returns after
    printing the status of the response, and logs nothing. *)
Theorem transport_failure_is_fatal (w : World) (err : error) :
  remote w scenario_request = fail err ->
  exists w',
    client.main w = (Exited 1, w')
    /\ stderr w' = (stderr w ++ [Print [box err]])%list
    /\ stdout w' = stdout w
    /\ forall (w2 : World) (rsp : http.Response),
         remote w2 scenario_request = ok rsp ->
         exists w2',
           client.main w2 = (Returned tt, w2')
           /\ stdout w2' = (stdout w2 ++ [Println [box (http.StatusCode rsp)]])%list
           /\ stderr w2' = stderr w2.
Proof.
  intros Hfail. rewrite client_main_eq, Hfail. eexists.
  split; [reflexivity | split; [reflexivity | split; [reflexivity | ]]].
  intros w2 rsp Hok. rewrite client_main_eq, Hok. eexists.
  repeat split; reflexivity.
Qed.

Lemma transport_failure_is_fatal_witness :
  let w := boot unreachable in
  let err := "dial tcp 127.0.0.1:8088: connect: connection refused" in
  remote w scenario_request = fail err
  /\ exists w',
       client.main w = (Exited 1, w')
       /\ stderr w' = (stderr w ++ [Print [box err]])%list
       /\ stdout w' = stdout w
       /\ forall (w2 : World) (rsp : http.Response),
            remote w2 scenario_request = ok rsp ->
            exists w2',
              client.main w2 = (Returned tt, w2')
              /\ stdout w2'
                 = (stdout w2 ++ [Println [box (http.StatusCode rsp)]])%list
              /\ stderr w2' = stderr w2.
Proof.
  split.
  - reflexivity.
  - apply (transport_failure_is_fatal (boot unreachable)
             "dial tcp 127.0.0.1:8088: connect: connection refused").
    reflexivity.
Defined.

(** C10: the client is deterministic in what it sends.  Whatever the state
    and the network of a run, it sends exactly one request, the same in every
    run: PUT on [/order/234578] at the configured address, with item
    "Tea Table Green" and price 14 both present in the body. *)
Theorem client_request_is_constant (w1 w2 : World) :
  wire (snd (client.main w1)) = (wire w1 ++ [scenario_request])%list
  /\ wire (snd (client.main w2)) = (wire w2 ++ [scenario_request])%list
  /\ scenario_request
     = spec.NewPutOrderIdRequest "http://localhost:8088" "234578"
         (spec.mkOrder None (Some "Tea Table Green") (Some 14))
  /\ http.Path scenario_request = "/order/234578"
  /\ http.body scenario_request
     = http.Json (json.Object [("item", json.String "Tea Table Green");
                               ("price", json.Int 14)]).
Proof.
  split; [ | split; [ | repeat split; reflexivity ]].
  - rewrite client_main_eq. destruct (remote w1 scenario_request); reflexivity.
  - rewrite client_main_eq. destruct (remote w2 scenario_request); reflexivity.
Qed.

(** C6: an order encoded into the client's request and bound by the
    dispatcher's context comes out with the same [item] and [price], for
    every combination of present and absent fields. *)
Theorem order_round_trip (host id : string) (params : list (string * string))
    (o : spec.Order) :
  exists o' : spec.Order,
    echo.Bind (echo.NewContext (spec.NewPutOrderIdRequest host id o) params) spec.zero
    = (o', None)
    /\ spec.Item o' = spec.Item o
    /\ spec.Price o' = spec.Price o.
Proof.
  exists o. split; [ | split; reflexivity ].
  cbn. unfold echo.DefaultBinder. cbn.
  apply (Unmarshal_Marshal o).
Qed.

(** C8: in the body the client builds, [item] and [price] are each either
    absent or present with a value, independently of one another, and an
    absent field is not the same as a present zero value - neither in the
    struct nor in the request that is sent. *)
Theorem optional_fields_representable :
  (forall (item : option spec.OrderItem) (price : option Z),
     exists body : spec.PutOrderIdJSONRequestBody,
       spec.Item body = item /\ spec.Price body = price)
  /\ (forall (host id : string) (oid : option string) (price : option Z),
        spec.NewPutOrderIdRequest host id (spec.mkOrder oid None price)
        <> spec.NewPutOrderIdRequest host id (spec.mkOrder oid (Some "") price))
  /\ (forall (host id : string) (oid : option string) (item : option spec.OrderItem),
        spec.NewPutOrderIdRequest host id (spec.mkOrder oid item None)
        <> spec.NewPutOrderIdRequest host id (spec.mkOrder oid item (Some 0)))
  /\ (forall (host id : string) (b1 b2 : spec.PutOrderIdJSONRequestBody),
        spec.NewPutOrderIdRequest host id b1 = spec.NewPutOrderIdRequest host id b2 ->
        b1 = b2).
Proof.
  split; [ | split; [ | split ]].
  - intros item price. exists (spec.mkOrder None item price). split; reflexivity.
  - intros host id oid price H. apply NewPutOrderIdRequest_inj in H. discriminate H.
  - intros host id oid item H. apply NewPutOrderIdRequest_inj in H. discriminate H.
  - intros host id b1 b2. apply NewPutOrderIdRequest_inj.
Qed.


(** * Further properties of the two programs *)

(** ** One request through the server *)

Lemma find_registered (r : http.Request) (h : echo.HandlerFunc)
    (params : list (string * string)) :
  echo.find (echo.routes registered) r = Some (h, params) ->
  h = spec.ServerInterfaceWrapper_PutOrderId server.mkServer.
Proof.
  unfold registered, spec.RegisterHandlers, echo.PUT, echo.New.
  cbn [echo.routes app echo.find echo.route_method echo.route_path
       echo.route_handler].
  destruct (String.eqb "PUT" (http.Method r)); [ | discriminate ].
  destruct (echo.match_segments _ _); [ | discriminate ].
  intros H. injection H as H _. symmetry. exact H.
Qed.

Lemma ServeHTTP_harmless (r : http.Request) (w : World) :
  harmless r = true ->
  exists w',
    echo.ServeHTTP registered r w = (Returned tt, w')
    /\ replies w' = (replies w ++ [reply_to r])%list
    /\ stderr w' = (stderr w ++ lines_of r)%list
    /\ stdout w' = stdout w
    /\ wire w' = wire w
    /\ remote w' = remote w.
Proof.
  unfold harmless, poisonous, reply_to, lines_of, delivery, echo.ServeHTTP.
  destruct (echo.find (echo.routes registered) r) as [[h params]|] eqn:Hfind.
  - rewrite (find_registered r h params Hfind).
    destruct (echo.Bind (echo.NewContext r params) spec.zero) as [req [err|]] eqn:Hbind;
      [ discriminate | intros _ ].
    eexists. split.
    + unfold bind at 1. cbn [modify].
      erewrite bind_Returned.
      2:{ erewrite bind_Returned.
          2:{ unfold spec.ServerInterfaceWrapper_PutOrderId, spec.PutOrderId,
                server.server_ServerInterface.
              apply PutOrderId_bound. exact Hbind. }
          reflexivity. }
      cbn. reflexivity.
    + cbn. rewrite app_nil_r || idtac. repeat split; reflexivity.
  - intros _. eexists. split.
    + cbn. reflexivity.
    + cbn. rewrite app_nil_r. repeat split; reflexivity.
Qed.

Lemma ServeHTTP_poisonous (r : http.Request) (w : World) :
  poisonous r = true ->
  exists w',
    echo.ServeHTTP registered r w = (Exited 1, w')
    /\ replies w' = replies w
    /\ stderr w' = (stderr w ++ fatal_lines r)%list
    /\ stdout w' = stdout w.
Proof.
  unfold poisonous, fatal_lines, delivery, echo.ServeHTTP.
  destruct (echo.find (echo.routes registered) r) as [[h params]|] eqn:Hfind;
    [ | discriminate ].
  rewrite (find_registered r h params Hfind).
  destruct (echo.Bind (echo.NewContext r params) spec.zero) as [req [err|]] eqn:Hbind;
    [ intros _ | discriminate ].
  eexists. split.
  - unfold bind at 1. cbn [modify].
    erewrite bind_Exited.
    2:{ erewrite bind_Exited.
        2:{ unfold spec.ServerInterfaceWrapper_PutOrderId, spec.PutOrderId,
              server.server_ServerInterface.
            apply (PutOrderId_unbound _ _ _ _ req err). exact Hbind. }
        reflexivity. }
    reflexivity.
  - cbn. repeat split; reflexivity.
Qed.

(** ** A run of the server *)

Lemma main_eq (incoming : list http.Request) (w : World) :
  server.main incoming w
  = bind (echo.Start registered server.address incoming)
         (fun err => echo.Logger_Fatal [box err]) w.
Proof. reflexivity. Qed.

(** Requests that do not stop the server are served one after the other:
    each gets its reply and its log line, and the listener is still there. *)
Lemma Start_harmless (incoming : list http.Request) :
  forall w : World,
    forallb harmless incoming = true ->
    exists w',
      echo.Start registered server.address incoming w
      = (Returned "http: Server closed", w')
      /\ replies w' = (replies w ++ map reply_to incoming)%list
      /\ stderr w' = (stderr w ++ flat_map lines_of incoming)%list
      /\ stdout w' = stdout w.
Proof.
  induction incoming as [|r rest IH]; intros w Hall.
  - exists w. cbn. rewrite !app_nil_r. repeat split; reflexivity.
  - cbn [forallb] in Hall. apply andb_prop in Hall. destruct Hall as [Hr Hrest].
    destruct (ServeHTTP_harmless r w Hr)
      as [w1 [Hrun [Hreplies [Hlog [Hout _]]]]].
    destruct (IH w1 Hrest) as [w2 [Hrun2 [Hreplies2 [Hlog2 Hout2]]]].
    exists w2. split; [ | split; [ | split ]].
    + cbn [echo.Start]. rewrite (bind_Returned _ _ w w1 tt Hrun). exact Hrun2.
    + rewrite Hreplies2, Hreplies. cbn [map]. rewrite <- app_assoc. reflexivity.
    + rewrite Hlog2, Hlog. cbn [flat_map]. rewrite <- app_assoc. reflexivity.
    + rewrite Hout2. exact Hout.
Qed.

(** A poisonous request after harmless ones: the harmless ones are served,
    the process ends at the poisonous one, whatever comes after. *)
Lemma Start_poisonous (before : list http.Request) (r : http.Request)
    (after : list http.Request) :
  forall w : World,
    forallb harmless before = true ->
    poisonous r = true ->
    exists w',
      echo.Start registered server.address (before ++ r :: after) w = (Exited 1, w')
      /\ replies w' = (replies w ++ map reply_to before)%list
      /\ stderr w' = (stderr w ++ flat_map lines_of before ++ fatal_lines r)%list
      /\ stdout w' = stdout w.
Proof.
  induction before as [|r0 rest IH]; intros w Hall Hr.
  - destruct (ServeHTTP_poisonous r w Hr) as [w1 [Hrun [Hreplies [Hlog Hout]]]].
    exists w1. split; [ | split; [ | split ]].
    + cbn [app]. apply Start_Exited. exact Hrun.
    + rewrite Hreplies. cbn. rewrite app_nil_r. reflexivity.
    + exact Hlog.
    + exact Hout.
  - cbn [forallb] in Hall. apply andb_prop in Hall. destruct Hall as [Hr0 Hrest].
    destruct (ServeHTTP_harmless r0 w Hr0)
      as [w1 [Hrun [Hreplies [Hlog [Hout _]]]]].
    destruct (IH w1 Hrest Hr) as [w2 [Hrun2 [Hreplies2 [Hlog2 Hout2]]]].
    exists w2. split; [ | split; [ | split ]].
    + cbn [app echo.Start]. rewrite (bind_Returned _ _ w w1 tt Hrun). exact Hrun2.
    + rewrite Hreplies2, Hreplies. cbn [map]. rewrite <- app_assoc. reflexivity.
    + rewrite Hlog2, Hlog. cbn [flat_map]. rewrite <- !app_assoc. reflexivity.
    + rewrite Hout2. exact Hout.
Qed.

(** Every list of requests is harmless throughout, or has a first poisonous
    request. *)
Lemma first_poisonous (incoming : list http.Request) :
  forallb harmless incoming = true
  \/ exists before r after,
       incoming = (before ++ r :: after)%list
       /\ forallb harmless before = true
       /\ poisonous r = true.
Proof.
  induction incoming as [|r rest IH].
  - left. reflexivity.
  - destruct (poisonous r) eqn:Hr.
    + right. exists [], r, rest. repeat split; assumption || reflexivity.
    + destruct IH as [Hall | [before [r' [after [Heq [Hbefore Hr']]]]]].
      * left. cbn [forallb]. unfold harmless at 1. rewrite Hr. exact Hall.
      * right. exists (r :: before), r', after. split; [ | split ].
        -- rewrite Heq. reflexivity.
        -- cbn [forallb]. unfold harmless at 1. rewrite Hr. exact Hbefore.
        -- exact Hr'.
Qed.



(** ** Extra properties *)

(** X1: whatever the context does in [Bind], the handler ends in one of two
    ways - it returns nil, exactly when the body was bound, or the process
    exits with status 1 - so it never returns a non-nil error to the
    framework.  Either way it adds exactly one line to the log and leaves
    standard output, the response, the replies and the network alone. *)
Theorem handler_returns_nil_or_exits (s : server.server) (c : echo.Context)
    (id : string) (w : World) :
  (fst (server.PutOrderId s c id w) = Returned None
   \/ fst (server.PutOrderId s c id w) = Exited 1)
  /\ (fst (server.PutOrderId s c id w) = Returned None
      <-> snd (echo.Bind c spec.zero) = None)
  /\ length (stderr (snd (server.PutOrderId s c id w))) = S (length (stderr w))
  /\ stdout (snd (server.PutOrderId s c id w)) = stdout w
  /\ response (snd (server.PutOrderId s c id w)) = response w
  /\ replies (snd (server.PutOrderId s c id w)) = replies w
  /\ wire (snd (server.PutOrderId s c id w)) = wire w.
Proof.
  destruct (echo.Bind c spec.zero) as [req [err|]] eqn:Hbind.
  - rewrite (PutOrderId_unbound s c id w req err Hbind). cbn.
    rewrite length_app, Nat.add_comm. cbn.
    repeat split; try reflexivity; try discriminate.
    right. reflexivity.
  - rewrite (PutOrderId_bound s c id w req Hbind). cbn.
    rewrite length_app, Nat.add_comm. cbn.
    repeat split; try reflexivity.
    left. reflexivity.
Qed.

Lemma served_prefix_harmless (incoming : list http.Request) :
  forallb harmless incoming = true ->
  served_prefix incoming = incoming /\ stopper incoming = None.
Proof.
  induction incoming as [|r rest IH]; intros Hall.
  - split; reflexivity.
  - cbn [forallb] in Hall. apply andb_prop in Hall. destruct Hall as [Hr Hrest].
    destruct (IH Hrest) as [Hprefix Hstop].
    unfold stopper in *. cbn [served_prefix List.find].
    rewrite Hr, Hprefix. unfold harmless in Hr. apply negb_true_iff in Hr.
    rewrite Hr, Hstop. split; reflexivity.
Qed.

Lemma served_prefix_poisonous (before : list http.Request) (r : http.Request)
    (after : list http.Request) :
  forallb harmless before = true ->
  poisonous r = true ->
  served_prefix (before ++ r :: after) = before
  /\ stopper (before ++ r :: after) = Some r.
Proof.
  intros Hbefore Hr. induction before as [|r0 rest IH].
  - unfold stopper, harmless. cbn [app served_prefix List.find harmless].
    unfold harmless. rewrite Hr. split; reflexivity.
  - cbn [forallb] in Hbefore. apply andb_prop in Hbefore.
    destruct Hbefore as [Hr0 Hrest]. destruct (IH Hrest) as [Hprefix Hstop].
    unfold stopper in *. cbn [app served_prefix List.find].
    rewrite Hr0, Hprefix. unfold harmless in Hr0. apply negb_true_iff in Hr0.
    rewrite Hr0, Hstop. split; reflexivity.
Qed.

(** X2: which requests the server answers.  For every sequence of incoming
    requests, the replies sent are exactly those to the requests that arrive
    before the first one whose body does not bind, and the log holds their
    lines followed by that request's error.  When there is such a request,
    the process has exited with status 1 at it - through the handler's
    [log.Fatal] - without the listener ever returning. *)
Theorem server_answers_until_first_bind_failure (incoming : list http.Request)
    (w : World) :
  replies (snd (server.main incoming w))
  = (replies w ++ map reply_to (served_prefix incoming))%list
  /\ stderr (snd (server.main incoming w))
     = (stderr w ++ flat_map lines_of (served_prefix incoming)
        ++ match stopper incoming with
           | Some r => fatal_lines r
           | None => []
           end)%list
  /\ match stopper incoming with
     | Some r =>
         fst (server.main incoming w) = Exited 1
         /\ stdout (snd (server.main incoming w)) = stdout w
         /\ (length (replies (snd (server.main incoming w)))
             < length (replies w) + length incoming)%nat
     | None => True
     end.
Proof.
  rewrite main_eq.
  destruct (first_poisonous incoming)
    as [Hall | [before [r [after [Heq [Hbefore Hr]]]]]].
  - destruct (served_prefix_harmless incoming Hall) as [Hprefix Hstop].
    destruct (Start_harmless incoming w Hall) as [w' [Hrun [Hreplies [Hlog _]]]].
    rewrite (bind_Returned _ _ w w' _ Hrun), Hprefix, Hstop.
    cbn. rewrite app_nil_r. repeat split; assumption.
  - subst incoming.
    destruct (served_prefix_poisonous before r after Hbefore Hr) as [Hprefix Hstop].
    destruct (Start_poisonous before r after w Hbefore Hr)
      as [w' [Hrun [Hreplies [Hlog Hout]]]].
    rewrite (bind_Exited _ _ w w' 1 Hrun), Hprefix, Hstop.
    cbn [fst snd]. repeat split; try assumption.
    rewrite Hreplies, !length_app, length_map. cbn [length].
    apply Nat.add_lt_mono_l. rewrite Nat.add_succ_r.
    apply Nat.lt_succ_r, Nat.le_add_r.
Qed.



(** X4: one request whose body does not bind stops the server for everyone.
    The requests before it are answered; the process exits with status 1 at
    that request, which gets no reply; the requests after it are never looked
    at - the end state is the same whatever they are. *)
Theorem poisonous_request_stops_server (before : list http.Request)
    (r : http.Request) (after : list http.Request) (w : World) :
  forallb harmless before = true ->
  poisonous r = true ->
  exists w',
    server.main (before ++ r :: after) w = (Exited 1, w')
    /\ server.main (before ++ [r]) w = (Exited 1, w')
    /\ replies w' = (replies w ++ map reply_to before)%list
    /\ stderr w' = (stderr w ++ flat_map lines_of before ++ fatal_lines r)%list
    /\ stdout w' = stdout w.
Proof.
  intros Hbefore Hr.
  destruct (Start_poisonous before r after w Hbefore Hr)
    as [w' [Hrun [Hreplies [Hlog Hout]]]].
  destruct (Start_poisonous before r [] w Hbefore Hr) as [w'' [Hrun' _]].
  exists w'. split; [ | split; [ | repeat split; assumption ]].
  - rewrite main_eq. rewrite (bind_Exited _ _ w w' 1 Hrun). reflexivity.
  - rewrite main_eq. rewrite (bind_Exited _ _ w w'' 1 Hrun').
    f_equal. clear - Hrun Hrun'.
    revert w Hrun Hrun'. induction before as [|r0 rest IH]; intros w Hrun Hrun'.
    + cbn [app echo.Start] in Hrun, Hrun'. unfold bind in Hrun, Hrun'.
      destruct (echo.ServeHTTP registered r w) as [[[]|code] w1].
      * cbn in Hrun'. discriminate.
      * congruence.
    + cbn [app echo.Start] in Hrun, Hrun'. unfold bind at 1 in Hrun.
      unfold bind at 1 in Hrun'.
      destruct (echo.ServeHTTP registered r0 w) as [[[]|code] w1].
      * exact (IH w1 Hrun Hrun').
      * congruence.
Qed.

Lemma poisonous_request_stops_server_witness :
  let bad := http.mkRequest "PUT" "localhost:8088" "/order/1" "application/json"
               (http.Unparseable "{") in
  let before := [scenario_request] in
  let after := [scenario_request; scenario_request] in
  let w := boot unreachable in
  forallb harmless before = true
  /\ poisonous bad = true
  /\ exists w',
       server.main (before ++ bad :: after) w = (Exited 1, w')
       /\ server.main (before ++ [bad]) w = (Exited 1, w')
       /\ replies w' = (replies w ++ map reply_to before)%list
       /\ stderr w' = (stderr w ++ flat_map lines_of before ++ fatal_lines bad)%list
       /\ stdout w' = stdout w.
Proof.
  split; [reflexivity | split; [reflexivity | ]].
  apply (poisonous_request_stops_server [scenario_request]
           (http.mkRequest "PUT" "localhost:8088" "/order/1" "application/json"
              (http.Unparseable "{"))
           [scenario_request; scenario_request] (boot unreachable));
    reflexivity.
Defined.

(** ** The client in front of the server *)

Lemma harmless_scenario_request : harmless scenario_request = true.
Proof. reflexivity. Qed.

Lemma served_after_harmless (history : list http.Request) :
  forallb harmless history = true ->
  served_after history scenario_request = ok (http.mkResponse http.StatusOK).
Proof.
  intros Hall. unfold served_after.
  assert (Hall' : forallb harmless (history ++ [scenario_request]) = true).
  { rewrite forallb_app, Hall. reflexivity. }
  destruct (Start_harmless _ (boot unreachable) Hall') as [w' [Hrun [Hreplies _]]].
  rewrite main_eq, (bind_Returned _ _ _ w' _ Hrun).
  cbn [echo.Logger_Fatal snd]. unfold echo.Logger_Fatal.
  cbn. rewrite Hreplies. cbn [replies boot app].
  rewrite map_app, skipn_app, length_map, Nat.sub_diag.
  rewrite skipn_all2 by (rewrite length_map; apply Nat.le_refl).
  reflexivity.
Qed.

Lemma served_after_poisonous (before : list http.Request) (r : http.Request)
    (after : list http.Request) (req : http.Request) :
  forallb harmless before = true ->
  poisonous r = true ->
  served_after (before ++ r :: after) req = fail "EOF".
Proof.
  intros Hbefore Hr. unfold served_after.
  rewrite <- app_assoc. cbn [app].
  destruct (Start_poisonous before r (after ++ [req]) (boot unreachable) Hbefore Hr)
    as [w' [Hrun [Hreplies _]]].
  rewrite main_eq, (bind_Exited _ _ _ w' 1 Hrun).
  cbn [snd]. rewrite Hreplies. cbn [replies boot app].
  rewrite skipn_all2; [ reflexivity | ].
  rewrite length_map, length_app. apply Nat.le_add_r.
Qed.

(** X5: the client in front of the server of this repository.  Whatever
    requests the server has answered before, as long as none of them stopped
    it, the client's request is served like the first one: the client prints
    200, logs nothing and ends normally. *)
Theorem client_after_harmless_history (history : list http.Request) :
  forallb harmless history = true ->
  client.main (boot (served_after history))
  = (Returned tt,
     set_stdout [Println [box http.StatusOK]]
       (set_wire [scenario_request] (boot (served_after history)))).
Proof.
  intros Hall. rewrite client_main_eq.
  cbn [remote boot]. rewrite (served_after_harmless history Hall). reflexivity.
Qed.

Lemma client_after_harmless_history_witness :
  let other := http.mkRequest "GET" "localhost:8088" "/" "text/plain"
                 (http.Unparseable "") in
  let history := [scenario_request; other; scenario_request] in
  forallb harmless history = true
  /\ client.main (boot (served_after history))
     = (Returned tt,
        set_stdout [Println [box http.StatusOK]]
          (set_wire [scenario_request] (boot (served_after history)))).
Proof.
  split.
  - reflexivity.
  - apply (client_after_harmless_history
             [scenario_request;
              http.mkRequest "GET" "localhost:8088" "/" "text/plain"
                (http.Unparseable "");
              scenario_request]).
    reflexivity.
Defined.

(** X6: once any earlier request has made the handler call [log.Fatal], the
    server is gone: the client's exchange fails at the transport, the client
    prints no status, logs the error and exits with status 1. *)
Theorem client_after_poisonous_request (before : list http.Request)
    (r : http.Request) (after : list http.Request) :
  forallb harmless before = true ->
  poisonous r = true ->
  client.main (boot (served_after (before ++ r :: after)))
  = (Exited 1,
     set_stderr [Print [box "EOF"]]
       (set_wire [scenario_request]
          (boot (served_after (before ++ r :: after))))).
Proof.
  intros Hbefore Hr. rewrite client_main_eq.
  cbn [remote boot].
  rewrite (served_after_poisonous before r after scenario_request Hbefore Hr).
  reflexivity.
Qed.

Lemma client_after_poisonous_request_witness :
  let bad := http.mkRequest "PUT" "localhost:8088" "/order/9" "application/json"
               (http.Json (json.Object [("price", json.String "14")])) in
  let history := ([scenario_request] ++ bad :: [scenario_request])%list in
  forallb harmless [scenario_request] = true
  /\ poisonous bad = true
  /\ client.main (boot (served_after history))
     = (Exited 1,
        set_stderr [Print [box "EOF"]]
          (set_wire [scenario_request] (boot (served_after history)))).
Proof.
  split; [reflexivity | split; [reflexivity | ]].
  apply (client_after_poisonous_request [scenario_request]
           (http.mkRequest "PUT" "localhost:8088" "/order/9" "application/json"
              (http.Json (json.Object [("price", json.String "14")])))
           [scenario_request]); reflexivity.
Defined.
